(** * materialize.checks.cloudtest_actions

    A shallow embedding of [ReplaceEnvironmentdStatefulSet], the action of
    [misc/python/materialize/checks/cloudtest_actions.py] that changes the
    image tag of the environmentd stateful set and replaces the live
    definition, together with the properties its specification states.

    The action is twenty lines of Python that thread three kinds of effect:
    exceptions, mutation of shared objects (the executor, one resource of the
    application) and calls into collaborators that live in other modules.
    It is embedded in a state-and-exception monad over a [World]; every
    access to a shared object also leaves an [event] in the world's trace,
    so that "before", "after" and "not read" are statements about runs. *)

From Stdlib Require Import String Ascii List Arith Lia.
From stdpp Require Import base tactics option list.
Import ListNotations.
Local Open Scope string_scope.
Local Open Scope list_scope.

(** ** Python values the action handles *)

(** A class object.  Python compares classes by identity; a class is
    identified here by its qualified name, and carries the names of its
    proper ancestors (its [__mro__] without itself). *)
Record pyclass : Type := PyClass {
  cls_name : string;
  cls_ancestors : list string
}.

(** The name bound by
    [from materialize.cloudtest.k8s.environmentd import EnvironmentdStatefulSet]. *)
Definition EnvironmentdStatefulSet : string := "EnvironmentdStatefulSet".

(** [type(resource) == C]: the class of the object is [C] itself. *)
Definition type_is (c : pyclass) (C : string) : bool :=
  String.eqb (cls_name c) C.

(** [issubclass(c, C)]: [C] is the class or one of its ancestors. *)
Definition issubclass (c : pyclass) (C : string) : bool :=
  type_is c C || existsb (String.eqb C) (cls_ancestors c).

(** A class derived from [C] that is not [C]. *)
Definition strict_subclass (c : pyclass) (C : string) : bool :=
  negb (type_is c C) && existsb (String.eqb C) (cls_ancestors c).

(** Truth value of a [str | None]: [None] and the empty string are false. *)
Definition truthy (t : option string) : bool :=
  match t with
  | None => false
  | Some s => negb (String.eqb s "")
  end.

(** ** The collaborators

    [MzVersion], [Executor], the cloudtest application and the resources are
    imported from other modules of the repository; the action only uses the
    operations below.  They are the parameters of the embedding.  Their types
    say what each may do: the two parsers return or raise and change
    nothing; [replace()] works on the resource it is called on and on the
    cluster, and does not reach the executor. *)
Class Collaborators : Type := {
  (** [materialize.util.MzVersion] *)
  MzVersion : Type;
  (** what the collaborators raise *)
  external_error : Type;
  (** [MzVersion.parse_mz(s)] *)
  MzVersion_parse_mz : string -> external_error + MzVersion;
  (** [MzVersion.parse_cargo()]: the version of the build manifest *)
  MzVersion_parse_cargo : external_error + MzVersion;
  (** [str(v)], as the f-string formats a version *)
  MzVersion_str : MzVersion -> string;
  (** the object [e.cloudtest_application()] returns a reference to *)
  app_handle : Type;
  (** the attributes of an [Executor] the action never names *)
  executor_attrs : Type;
  (** the attributes of a resource other than its class and its [tag] *)
  resource_attrs : Type;
  (** the live cluster the resources are deployed to *)
  cluster_state : Type;
  (** [EnvironmentdStatefulSet.replace(self)]: reads the tag and the other
      attributes of the resource, re-creates its definition and swaps it in
      the cluster; the last component is the exception it raised, if any *)
  EnvironmentdStatefulSet_replace :
    option string -> resource_attrs -> cluster_state ->
    resource_attrs * cluster_state * option external_error
}.

Section Model.
Context `{Env : Collaborators}.

(** A managed resource of the application (a [K8sResource] object). *)
Record Resource : Type := mkResource {
  res_type : pyclass;
  tag : option string;
  res_attrs : resource_attrs
}.

(** Modelled from the spec: the [Executor] class is not part of the file; the
    spec gives it the version last known to be running and a handle to the
    test application, which [cloudtest_application()] returns. *)
Record Executor : Type := mkExecutor {
  current_mz_version : MzVersion;
  application : app_handle;
  exec_attrs : executor_attrs
}.

(** The action object: [self.new_tag]. *)
Record ReplaceEnvironmentdStatefulSet : Type := mkAction {
  new_tag : option string
}.

(** What a run can be observed to do, in program order.  A resource is
    referred to by its position in [mz.resources]. *)
Inductive event : Type :=
| EvParseMz (s : string)
| EvParseCargo
| EvGetVersion
| EvPrint (line : string)
| EvGetApplication
| EvGetResources
| EvSetTag (i : nat) (t : option string)
| EvReplace (i : nat)
| EvSetVersion (v : MzVersion).

(** Everything a run can read or change: the executor [e], the objects of
    [e.cloudtest_application().resources], the cluster behind them, and the
    trace of what has happened so far. *)
Record World : Type := mkWorld {
  executor : Executor;
  resources : list Resource;
  cluster : cluster_state;
  trace : list event
}.

(** Exceptions: the two the action's own statements can raise, the one kept
    for a reference to no object (no run produces it), and whatever a
    collaborator raised, carried as it is. *)
Inductive exn : Type :=
| AssertionError
| IndexError
| ReferenceError
| External (x : external_error).

Inductive outcome (A : Type) : Type :=
| Returned (a : A)
| Raised (x : exn).
Arguments Returned {A} a.
Arguments Raised {A} x.

(** ** The monad of statements *)

Definition M (A : Type) : Type := World -> World * outcome A.

Definition ret {A} (a : A) : M A := fun w => (w, Returned a).

Definition raise {A} (x : exn) : M A := fun w => (w, Raised x).

Definition bind {A B} (m : M A) (f : A -> M B) : M B :=
  fun w =>
    match m w with
    | (w', Returned a) => f a w'
    | (w', Raised x) => (w', Raised x)
    end.

Definition log (ev : event) (w : World) : World :=
  mkWorld (executor w) (resources w) (cluster w) (trace w ++ [ev]).

Definition emit (ev : event) : M unit := fun w => (log ev w, Returned tt).

(** The result of a call into a collaborator that returns or raises. *)
Definition call {A} (r : external_error + A) : M A :=
  match r with
  | inl x => raise (External x)
  | inr a => ret a
  end.

#[global] Instance M_ret : MRet M := @ret.
#[global] Instance M_bind : MBind M := fun A B f m => bind m f.

(** [assert b] *)
Definition py_assert (b : bool) : M unit :=
  if b then ret tt else raise AssertionError.

(** [l[0]] *)
Definition subscript0 {A} (l : list A) : M A :=
  match l with
  | x :: _ => ret x
  | [] => raise IndexError
  end.

(** ** The statements of the action, one definition per operation *)

(** [MzVersion.parse_mz(s)] *)
Definition parse_mz (s : string) : M MzVersion :=
  emit (EvParseMz s);; call (MzVersion_parse_mz s).

(** [MzVersion.parse_cargo()] *)
Definition parse_cargo : M MzVersion :=
  emit EvParseCargo;; call MzVersion_parse_cargo.

(** [e.current_mz_version] *)
Definition get_current_mz_version : M MzVersion :=
  fun w => (log EvGetVersion w, Returned (current_mz_version (executor w))).

(** [print(line)] *)
Definition print (line : string) : M unit := emit (EvPrint line).

(** [e.cloudtest_application()] *)
Definition cloudtest_application : M app_handle :=
  fun w => (log EvGetApplication w, Returned (application (executor w))).

(** Python's [enumerate(l, k)]: every object with its position. *)
Fixpoint enumerate_from {A} (k : nat) (l : list A) : list (nat * A) :=
  match l with
  | [] => []
  | x :: l' => (k, x) :: enumerate_from (S k) l'
  end.

(** [mz.resources]: the references to the resources of the application, in
    order; a reference is a position, paired with the object it refers to. *)
Definition get_resources (mz : app_handle) : M (list (nat * Resource)) :=
  fun w => (log EvGetResources w, Returned (enumerate_from 0 (resources w))).

(** [type(resource) == EnvironmentdStatefulSet] *)
Definition is_stateful_set (r : Resource) : bool :=
  type_is (res_type r) EnvironmentdStatefulSet.

(** [[resource for resource in rs if type(resource) == EnvironmentdStatefulSet]] *)
Definition select_stateful_sets (rs : list (nat * Resource)) : list (nat * Resource) :=
  List.filter (fun resource => is_stateful_set (snd resource)) rs.

(** [stateful_set.tag = t] *)
Definition set_tag (stateful_set : nat * Resource) (t : option string) : M unit :=
  fun w =>
    let i := fst stateful_set in
    match resources w !! i with
    | Some r =>
        (mkWorld (executor w)
                 (<[i := mkResource (res_type r) t (res_attrs r)]> (resources w))
                 (cluster w)
                 (trace w ++ [EvSetTag i t]),
         Returned tt)
    | None => (w, Raised ReferenceError)
    end.

(** [stateful_set.replace()] *)
Definition replace (stateful_set : nat * Resource) : M unit :=
  fun w =>
    let i := fst stateful_set in
    match resources w !! i with
    | Some r =>
        let '(attrs', cluster', raised) :=
          EnvironmentdStatefulSet_replace (tag r) (res_attrs r) (cluster w) in
        (mkWorld (executor w)
                 (<[i := mkResource (res_type r) (tag r) attrs']> (resources w))
                 cluster'
                 (trace w ++ [EvReplace i]),
         match raised with
         | Some x => Raised (External x)
         | None => Returned tt
         end)
    | None => (w, Raised ReferenceError)
    end.

(** [e.current_mz_version = v] *)
Definition set_current_mz_version (v : MzVersion) : M unit :=
  fun w =>
    (mkWorld (mkExecutor v (application (executor w)) (exec_attrs (executor w)))
             (resources w)
             (cluster w)
             (trace w ++ [EvSetVersion v]),
     Returned tt).

(** ** The action *)

(** The conditional expression that computes [new_version]:
    [MzVersion.parse_mz(self.new_tag) if self.new_tag else MzVersion.parse_cargo()]. *)
Definition resolve_version (self : ReplaceEnvironmentdStatefulSet) : M MzVersion :=
  match new_tag self with
  | Some s => if truthy (Some s) then parse_mz s else parse_cargo
  | None => parse_cargo
  end.

(** The lookup: the comprehension over [mz.resources], the assertion and
    [stateful_set[0]]. *)
Definition find_stateful_set (mz : app_handle) : M (nat * Resource) :=
  rs ← get_resources mz;
  let stateful_set := select_stateful_sets rs in
  py_assert (Nat.eqb (length stateful_set) 1);;
  subscript0 stateful_set.

Definition progress_line (old new : MzVersion) : string :=
  ("Replacing environmentd stateful set from version " ++ MzVersion_str old
     ++ " to version " ++ MzVersion_str new)%string.

(** [ReplaceEnvironmentdStatefulSet.execute(self, e)] *)
Definition execute (self : ReplaceEnvironmentdStatefulSet) : M unit :=
  new_version ← resolve_version self;
  old_version ← get_current_mz_version;
  print (progress_line old_version new_version);;
  mz ← cloudtest_application;
  stateful_set ← find_stateful_set mz;
  set_tag stateful_set (new_tag self);;
  replace stateful_set;;
  set_current_mz_version new_version.

(** [ReplaceEnvironmentdStatefulSet.join(self, e)]: [pass]. *)
Definition join (self : ReplaceEnvironmentdStatefulSet) : M unit := ret tt.

(** ** Vocabulary of the statements *)

(** How many resources of the set are of the target kind. *)
Definition count_stateful_sets (rs : list Resource) : nat :=
  length (List.filter is_stateful_set rs).

(** What the resolution of the version returns or raises, as a value. *)
Definition resolved (self : ReplaceEnvironmentdStatefulSet) : external_error + MzVersion :=
  if truthy (new_tag self)
  then match new_tag self with
       | Some s => MzVersion_parse_mz s
       | None => MzVersion_parse_cargo
       end
  else MzVersion_parse_cargo.

(** The call the conditional expression makes. *)
Definition parse_event (self : ReplaceEnvironmentdStatefulSet) : event :=
  match new_tag self with
  | Some s => if truthy (Some s) then EvParseMz s else EvParseCargo
  | None => EvParseCargo
  end.

(** What a run has done when it reaches the comprehension and the version
    resolved to [v]. *)
Definition prelude (self : ReplaceEnvironmentdStatefulSet) (w : World) (v : MzVersion)
  : list event :=
  [parse_event self; EvGetVersion;
   EvPrint (progress_line (current_mz_version (executor w)) v);
   EvGetApplication; EvGetResources].

(** The world with more events in its trace and nothing else changed. *)
Definition extend (w : World) (evs : list event) : World :=
  mkWorld (executor w) (resources w) (cluster w) (trace w ++ evs).

(** The run left the executor, every resource and the cluster as they were. *)
Definition unchanged (w w' : World) : Prop :=
  executor w' = executor w /\ resources w' = resources w /\ cluster w' = cluster w.

(** The events a run added to the trace. *)
Definition happened (w w' : World) (evs : list event) : Prop :=
  trace w' = trace w ++ evs.

(** An event that reads or writes the executor or a resource. *)
Definition touches_state (ev : event) : bool :=
  match ev with
  | EvParseMz _ | EvParseCargo | EvPrint _ => false
  | _ => true
  end.

(** The event writes [e.current_mz_version]. *)
Definition records_version (ev : event) : bool :=
  match ev with
  | EvSetVersion _ => true
  | _ => false
  end.

(** The event is a call of [replace()]. *)
Definition calls_replace (ev : event) : bool :=
  match ev with
  | EvReplace _ => true
  | _ => false
  end.

(** The event assigns a [tag]. *)
Definition assigns_tag (ev : event) : bool :=
  match ev with
  | EvSetTag _ _ => true
  | _ => false
  end.

(** The run reaches [stateful_set.replace()], on the resource at [i], and
    the call raises [x]. *)
Definition replace_raises (self : ReplaceEnvironmentdStatefulSet) (w : World)
    (i : nat) (x : external_error) : Prop :=
  exists v r,
    resolved self = inr v /\
    select_stateful_sets (enumerate_from 0 (resources w)) = [(i, r)] /\
    snd (EnvironmentdStatefulSet_replace (new_tag self) (res_attrs r) (cluster w))
      = Some x.

(** The executor kept its application handle and its other attributes. *)
Definition same_frame (w w' : World) : Prop :=
  application (executor w') = application (executor w) /\
  exec_attrs (executor w') = exec_attrs (executor w).

(** Whatever the statement does, in every world, is within [R]. *)
Definition within (R : World -> World -> Prop) {A} (m : M A) : Prop :=
  forall w, R w (fst (m w)).

(** The four ways a run of [execute] ends, in the order of the source: the
    version does not resolve; the assertion fails; [replace()] raises;
    the version is recorded. *)
Inductive run (self : ReplaceEnvironmentdStatefulSet) (w : World)
  : World -> outcome unit -> Prop :=
| run_unresolved x :
    resolved self = inl x ->
    run self w (extend w [parse_event self]) (Raised (External x))
| run_miscounted v :
    resolved self = inr v ->
    count_stateful_sets (resources w) <> 1 ->
    run self w (extend w (prelude self w v)) (Raised AssertionError)
| run_rejected v i r attrs' cluster' x :
    resolved self = inr v ->
    select_stateful_sets (enumerate_from 0 (resources w)) = [(i, r)] ->
    EnvironmentdStatefulSet_replace (new_tag self) (res_attrs r) (cluster w)
      = (attrs', cluster', Some x) ->
    run self w
      (mkWorld (executor w)
         (<[i := mkResource (res_type r) (new_tag self) attrs']> (resources w))
         cluster'
         (trace w ++ prelude self w v ++ [EvSetTag i (new_tag self); EvReplace i]))
      (Raised (External x))
| run_replaced v i r attrs' cluster' :
    resolved self = inr v ->
    select_stateful_sets (enumerate_from 0 (resources w)) = [(i, r)] ->
    EnvironmentdStatefulSet_replace (new_tag self) (res_attrs r) (cluster w)
      = (attrs', cluster', None) ->
    run self w
      (mkWorld (mkExecutor v (application (executor w)) (exec_attrs (executor w)))
         (<[i := mkResource (res_type r) (new_tag self) attrs']> (resources w))
         cluster'
         (trace w ++ prelude self w v
            ++ [EvSetTag i (new_tag self); EvReplace i; EvSetVersion v]))
      (Returned tt).

(** A tag read as a version is [v]: it is a string and parses to [v]. *)
Definition tag_denotes (t : option string) (v : MzVersion) : Prop :=
  match t with
  | Some s => MzVersion_parse_mz s = inr v
  | None => False
  end.

(** [ReplaceEnvironmentdStatefulSet.__init__(self, new_tag=None)]: the
    argument, when one is passed, is stored as it is. *)
Definition init (new_tag : option (option string)) : ReplaceEnvironmentdStatefulSet :=
  mkAction (match new_tag with
            | Some t => t
            | None => None
            end).

(** The event is a call of one of the two parsers. *)
Definition is_parse (ev : event) : bool :=
  match ev with
  | EvParseMz _ | EvParseCargo => true
  | _ => false
  end.

(** The event is a printed line. *)
Definition is_print (ev : event) : bool :=
  match ev with
  | EvPrint _ => true
  | _ => false
  end.

End Model.

Arguments Returned {Env A} a.
Arguments Raised {Env A} x.

(** ** The scenarios of the specification

    A concrete set of collaborators on which the action runs: versions are
    release triples with an optional pre-release label, the build manifest
    reports [0.11.0-dev], a resource counts its re-created definitions, and the
    cluster remembers the tag it was last given, or rejects every
    replacement. *)
Module Scenario.

Record SemVer : Type := mkSemVer {
  major : nat;
  minor : nat;
  patch : nat;
  prerelease : option string
}.

Inductive failure : Type :=
| MalformedVersion (s : string)
| ReplaceRejected.

(** The text before the first [c], and the text after it when [c] occurs. *)
Fixpoint split_at (c : ascii) (s : string) : string * option string :=
  match s with
  | EmptyString => (EmptyString, None)
  | String a s' =>
      if Ascii.eqb a c then (EmptyString, Some s')
      else let (h, t) := split_at c s' in (String a h, t)
  end.

Definition digit (a : ascii) : option nat :=
  let n := nat_of_ascii a in
  if ((48 <=? n) && (n <=? 57))%nat then Some (n - 48) else None.

Fixpoint number_from (acc : nat) (s : string) : option nat :=
  match s with
  | EmptyString => Some acc
  | String a s' =>
      match digit a with
      | Some d => number_from (10 * acc + d) s'
      | None => None
      end
  end.

Definition number (s : string) : option nat :=
  match s with
  | EmptyString => None
  | _ => number_from 0 s
  end.

(** Modelled from the spec: [MzVersion.parse_mz] is not part of the file; the
    spec has it parse an explicit release or pre-release identifier and fail
    on a string outside the version grammar, and its scenarios read
    [0.10.0] and [0.11.0-dev] as versions and [not-a-version] as malformed. *)
Definition parse_release (s : string) : failure + SemVer :=
  let (core, pre) := split_at "-" s in
  let (a, rest) := split_at "." core in
  match rest with
  | None => inl (MalformedVersion s)
  | Some rest =>
      let (b, rest') := split_at "." rest in
      match rest', number a, number b with
      | Some c, Some x, Some y =>
          match number c, pre with
          | Some z, Some EmptyString => inl (MalformedVersion s)
          | Some z, _ => inr (mkSemVer x y z pre)
          | None, _ => inl (MalformedVersion s)
          end
      | _, _, _ => inl (MalformedVersion s)
      end
  end.

(** The decimal digits of [n], written in front of [acc]. *)
Fixpoint digits_of (fuel n : nat) (acc : string) : string :=
  match fuel with
  | 0 => acc
  | S fuel' =>
      let acc' := String (ascii_of_nat (48 + n mod 10)) acc in
      if Nat.eqb (n / 10) 0 then acc' else digits_of fuel' (n / 10) acc'
  end.

Definition decimal (n : nat) : string := digits_of (S n) n "".

Definition render (v : SemVer) : string :=
  (decimal (major v) ++ "." ++ decimal (minor v) ++ "." ++ decimal (patch v)
   ++ match prerelease v with
      | Some p => "-" ++ p
      | None => ""
      end)%string.

(** What the build manifest reports. *)
Definition v0_11_0_dev : SemVer := mkSemVer 0 11 0 (Some "dev").

Record Cluster : Type := mkCluster {
  deployed : option string;
  accepting : bool
}.

(** Modelled from the spec: [replace()] swaps the live definition for the new
    one, or fails with an error of the cluster layer. *)
Definition swap (t : option string) (generation : nat) (c : Cluster)
  : nat * Cluster * option failure :=
  if accepting c
  then (S generation, mkCluster t true, None)
  else (S generation, c, Some ReplaceRejected).

#[export] Instance harness : Collaborators := {|
  MzVersion := SemVer;
  external_error := failure;
  MzVersion_parse_mz := parse_release;
  MzVersion_parse_cargo := inr v0_11_0_dev;
  MzVersion_str := render;
  app_handle := string;
  executor_attrs := list string;
  resource_attrs := nat;
  cluster_state := Cluster;
  EnvironmentdStatefulSet_replace := swap
|}.

Definition K8sService : pyclass :=
  PyClass "K8sService" ["K8sResource"; "object"].

Definition environmentd_class : pyclass :=
  PyClass "EnvironmentdStatefulSet" ["K8sStatefulSet"; "K8sResource"; "object"].

(** A class that derives from the target class. *)
Definition derived_class : pyclass :=
  PyClass "TunedEnvironmentdStatefulSet"
    ["EnvironmentdStatefulSet"; "K8sStatefulSet"; "K8sResource"; "object"].

Definition service : Resource := mkResource K8sService None 0.
Definition environmentd : Resource := mkResource environmentd_class (Some "0.9.0") 3.
Definition tuned : Resource := mkResource derived_class (Some "0.9.0") 1.

Definition v0_9_0 : SemVer := mkSemVer 0 9 0 None.
Definition v0_10_0 : SemVer := mkSemVer 0 10 0 None.

Definition runner : Executor := mkExecutor v0_9_0 "cloudtest" ["seed=1"].

Definition world (rs : list Resource) (ok : bool) : World :=
  mkWorld runner rs (mkCluster (Some "0.9.0") ok) [].

Definition healthy : World := world [service; environmentd; service] true.
Definition rejecting : World := world [service; environmentd; service] false.
Definition empty_set : World := world [service] true.
Definition two_sets : World := world [environmentd; service; environmentd] true.
Definition derived_only : World := world [service; tuned] true.

End Scenario.

(** ** A build whose manifest cannot be read as a version

    The collaborators of [Scenario], except that the version string of the
    build manifest is not a version. *)
Module StaleBuild.

Definition collaborators : Collaborators := {|
  MzVersion := Scenario.SemVer;
  external_error := Scenario.failure;
  MzVersion_parse_mz := Scenario.parse_release;
  MzVersion_parse_cargo := Scenario.parse_release "workspace";
  MzVersion_str := Scenario.render;
  app_handle := string;
  executor_attrs := list string;
  resource_attrs := nat;
  cluster_state := Scenario.Cluster;
  EnvironmentdStatefulSet_replace := Scenario.swap
|}.

Definition world : @World collaborators :=
  @mkWorld collaborators
    (@mkExecutor collaborators Scenario.v0_9_0 "cloudtest" [])
    [@mkResource collaborators Scenario.environmentd_class (Some "0.9.0") 3]
    (Scenario.mkCluster (Some "0.9.0") true)
    [].

End StaleBuild.

(** ** Properties *)

Section Properties.
Context `{Env : Collaborators}.

Implicit Types (self : ReplaceEnvironmentdStatefulSet) (w : World).
Implicit Types (rs : list Resource) (r : Resource) (i j k : nat).

(** *** The comprehension *)

Lemma enumerate_from_In {A} (l : list A) k i (x : A) :
  In (i, x) (enumerate_from k l) <-> k <= i /\ l !! (i - k) = Some x.
Proof.
  revert k; induction l as [|y l IH]; intros k; simpl.
  - split; [tauto | intros [_ H]; discriminate].
  - rewrite IH. split.
    + intros [H | [Hk H]].
      * injection H as -> ->. rewrite Nat.sub_diag. auto.
      * split; [lia |]. replace (i - k) with (S (i - S k)) by lia. exact H.
    + intros [Hk H]. destruct (decide (i = k)) as [-> | Hne].
      * rewrite Nat.sub_diag in H. simpl in H. left. congruence.
      * right. split; [lia |].
        replace (i - k) with (S (i - S k)) in H by lia. exact H.
Qed.

Lemma select_In rs k i r :
  In (i, r) (select_stateful_sets (enumerate_from k rs))
  <-> k <= i /\ rs !! (i - k) = Some r /\ is_stateful_set r = true.
Proof.
  unfold select_stateful_sets. rewrite filter_In, enumerate_from_In. simpl. tauto.
Qed.

Lemma select_length rs k :
  length (select_stateful_sets (enumerate_from k rs)) = count_stateful_sets rs.
Proof.
  unfold select_stateful_sets, count_stateful_sets.
  revert k; induction rs as [|r rs IH]; intros k; simpl; [reflexivity |].
  destruct (is_stateful_set r); simpl; rewrite IH; reflexivity.
Qed.

(** The one reference the comprehension found is the only resource of the
    target kind. *)
Lemma select_singleton rs i r :
  select_stateful_sets (enumerate_from 0 rs) = [(i, r)] ->
  rs !! i = Some r /\ is_stateful_set r = true /\
  forall j r', rs !! j = Some r' -> is_stateful_set r' = true -> j = i.
Proof.
  intros Hsel.
  assert (Hin : In (i, r) (select_stateful_sets (enumerate_from 0 rs)))
    by (rewrite Hsel; left; reflexivity).
  apply select_In in Hin. rewrite Nat.sub_0_r in Hin.
  destruct Hin as (_ & Hi & Hr). repeat split; [exact Hi | exact Hr |].
  intros j r' Hj Hr'.
  assert (Hin : In (j, r') (select_stateful_sets (enumerate_from 0 rs))).
  { apply select_In. rewrite Nat.sub_0_r. auto with arith. }
  rewrite Hsel in Hin. destruct Hin as [H | []]. congruence.
Qed.

Lemma select_of_count_1 rs :
  count_stateful_sets rs = 1 ->
  exists i r, select_stateful_sets (enumerate_from 0 rs) = [(i, r)].
Proof.
  rewrite <- (select_length rs 0).
  destruct (select_stateful_sets (enumerate_from 0 rs)) as [|[i r] [|q l]];
    simpl; try discriminate.
  intros _. eauto.
Qed.

(** *** Runs of the action, case by case *)

Ltac run := cbv [mbind M_bind bind mret M_ret ret raise emit call py_assert subscript0].

Lemma resolve_version_run self w :
  resolve_version self w =
  (extend w [parse_event self],
   match resolved self with
   | inl x => Raised (External x)
   | inr v => Returned v
   end).
Proof.
  destruct self as [[s|]]; unfold resolve_version, resolved, parse_event; simpl.
  - destruct (negb (String.eqb s "")); unfold parse_mz, parse_cargo; run;
      simpl; match goal with |- context [match ?c with inl _ => _ | inr _ => _ end] =>
        destruct c end; reflexivity.
  - unfold parse_cargo; run. simpl. destruct MzVersion_parse_cargo; reflexivity.
Qed.

Lemma find_stateful_set_run mz w :
  find_stateful_set mz w =
  (extend w [EvGetResources],
   match select_stateful_sets (enumerate_from 0 (resources w)) with
   | [stateful_set] => Returned stateful_set
   | _ => Raised AssertionError
   end).
Proof.
  unfold find_stateful_set, get_resources. run. simpl.
  destruct (select_stateful_sets (enumerate_from 0 (resources w))) as [|p [|q l]];
    reflexivity.
Qed.

(** The resolution of the version raised: nothing else happened. *)
Lemma execute_unresolved self w x :
  resolved self = inl x ->
  execute self w = (extend w [parse_event self], Raised (External x)).
Proof.
  intros Hres. unfold execute. run. rewrite resolve_version_run, Hres. reflexivity.
Qed.

(** The version resolved and the comprehension did not find exactly one
    resource: the assertion fails, after the five events of the prelude. *)
Lemma execute_miscounted self w v :
  resolved self = inr v ->
  count_stateful_sets (resources w) <> 1 ->
  execute self w = (extend w (prelude self w v), Raised AssertionError).
Proof.
  intros Hres Hcount. unfold execute.
  cbv [mbind M_bind bind]. rewrite resolve_version_run, Hres.
  unfold get_current_mz_version, print, cloudtest_application, emit.
  rewrite find_stateful_set_run. simpl.
  rewrite <- (select_length (resources w) 0) in Hcount.
  destruct (select_stateful_sets (enumerate_from 0 (resources w))) as [|p [|q l]];
    simpl in Hcount; try lia; unfold extend, prelude; simpl;
    rewrite <- !app_assoc; reflexivity.
Qed.

(** The version resolved and the comprehension found one resource: its tag
    is set, [replace()] is called, and the version is recorded if the call
    returned. *)
Lemma execute_replacing self w v i r :
  resolved self = inr v ->
  select_stateful_sets (enumerate_from 0 (resources w)) = [(i, r)] ->
  execute self w =
  let '(attrs', cluster', raised) :=
    EnvironmentdStatefulSet_replace (new_tag self) (res_attrs r) (cluster w) in
  let rs' := <[i := mkResource (res_type r) (new_tag self) attrs']> (resources w) in
  match raised with
  | Some x =>
      (mkWorld (executor w) rs' cluster'
         (trace w ++ prelude self w v ++ [EvSetTag i (new_tag self); EvReplace i]),
       Raised (External x))
  | None =>
      (mkWorld (mkExecutor v (application (executor w)) (exec_attrs (executor w)))
         rs' cluster'
         (trace w ++ prelude self w v
            ++ [EvSetTag i (new_tag self); EvReplace i; EvSetVersion v]),
       Returned tt)
  end.
Proof.
  intros Hres Hsel. destruct (select_singleton _ _ _ Hsel) as (Hi & _ & _).
  pose proof (lookup_lt_Some _ _ _ Hi) as Hlt.
  unfold execute. cbv [mbind M_bind bind]. rewrite resolve_version_run, Hres.
  unfold get_current_mz_version, print, cloudtest_application, emit.
  rewrite find_stateful_set_run. simpl. rewrite Hsel.
  unfold set_tag, replace, set_current_mz_version. simpl. rewrite Hi. simpl.
  rewrite list_lookup_insert_eq by exact Hlt. simpl.
  destruct (EnvironmentdStatefulSet_replace (new_tag self) (res_attrs r) (cluster w))
    as [[attrs' cluster'] [x|]]; simpl;
    rewrite list_insert_insert_eq; unfold prelude; rewrite <- !app_assoc; reflexivity.
Qed.

(** Every run of [execute] is one of the four. *)
Lemma execute_run self w : run self w (fst (execute self w)) (snd (execute self w)).
Proof.
  destruct (resolved self) as [x|v] eqn:Hres.
  - rewrite (execute_unresolved _ _ _ Hres). by constructor.
  - destruct (decide (count_stateful_sets (resources w) = 1)) as [Hone|Hcount].
    + destruct (select_of_count_1 _ Hone) as (i & r & Hsel).
      rewrite (execute_replacing _ _ _ _ _ Hres Hsel).
      destruct (EnvironmentdStatefulSet_replace (new_tag self) (res_attrs r) (cluster w))
        as [[attrs' cluster'] [x|]] eqn:Hrep; simpl.
      * eapply run_rejected; eauto.
      * eapply run_replaced; eauto.
    + rewrite (execute_miscounted _ _ _ Hres Hcount). by constructor.
Qed.

Lemma execute_inv self w w' out : execute self w = (w', out) -> run self w w' out.
Proof. intros H. pose proof (execute_run self w) as Hrun. by rewrite H in Hrun. Qed.

Lemma run_execute self w w' out : run self w w' out -> execute self w = (w', out).
Proof.
  intros [x Hres | v Hres Hcount | v i r a c x Hres Hsel Hrep | v i r a c Hres Hsel Hrep].
  - by apply execute_unresolved.
  - by apply execute_miscounted.
  - rewrite (execute_replacing _ _ _ _ _ Hres Hsel), Hrep. reflexivity.
  - rewrite (execute_replacing _ _ _ _ _ Hres Hsel), Hrep. reflexivity.
Qed.

(** A run raises the assertion's error or what a collaborator raised: the
    subscript is in range once the assertion has passed, and the reference
    it yields is to a resource of the set. *)
Lemma execute_raises_only self w x :
  snd (execute self w) = Raised x ->
  x = AssertionError \/ exists y, x = External y.
Proof.
  intros Hx. pose proof (execute_run self w) as Hrun. rewrite Hx in Hrun.
  inversion Hrun; eauto.
Qed.

Ltac runs H :=
  apply execute_inv in H;
  inversion H as [x Hres | v Hres Hcount
                 | v i r attrs' cluster' x Hres Hsel Hrep
                 | v i r attrs' cluster' Hres Hsel Hrep]; subst; clear H.

(** *** Version resolution *)

Lemma resolved_explicit s :
  s <> "" -> resolved (mkAction (Some s)) = MzVersion_parse_mz s.
Proof.
  intros Hs. unfold resolved; simpl.
  destruct (String.eqb_spec s ""); [contradiction | reflexivity].
Qed.

Lemma parse_event_explicit s :
  s <> "" -> parse_event (mkAction (Some s)) = EvParseMz s.
Proof.
  intros Hs. unfold parse_event; simpl.
  destruct (String.eqb_spec s ""); [contradiction | reflexivity].
Qed.

Lemma resolved_truthy self v :
  truthy (new_tag self) = true -> resolved self = inr v -> tag_denotes (new_tag self) v.
Proof.
  destruct self as [[s|]]; unfold resolved; simpl; [| discriminate].
  intros ->. trivial.
Qed.

Lemma resolved_falsy self :
  truthy (new_tag self) = false -> resolved self = MzVersion_parse_cargo.
Proof. unfold resolved. by intros ->. Qed.

Lemma parse_event_quiet self :
  records_version (parse_event self) = false /\
  calls_replace (parse_event self) = false /\
  assigns_tag (parse_event self) = false /\
  touches_state (parse_event self) = false.
Proof.
  unfold parse_event.
  destruct (new_tag self) as [s|]; simpl; [destruct (negb (String.eqb s "")) |]; auto.
Qed.

Lemma prelude_quiet self w v :
  existsb records_version (prelude self w v) = false /\
  existsb calls_replace (prelude self w v) = false /\
  existsb assigns_tag (prelude self w v) = false.
Proof.
  unfold prelude, parse_event.
  destruct (new_tag self) as [s|]; simpl; [destruct (negb (String.eqb s "")) |]; auto.
Qed.

Ltac quiet self w v :=
  rewrite ?existsb_app;
  let Hv := fresh in let Hc := fresh in let Ht := fresh in
  destruct (prelude_quiet self w v) as (Hv & Hc & Ht);
  rewrite ?Hv, ?Hc, ?Ht; try split; reflexivity.

(** C1 (as amended).  When [execute] returns, the executor's
    [current_mz_version] is the version the action's tag resolved to, and the
    resource of the target kind, which is the only one of the set, has for
    [tag] the action's [new_tag] as it was given; that tag reads as the
    resolved version when it is a non-empty string.  (With no tag, or an
    empty one, the resource's tag is that absent or empty value and not the
    version taken from the build manifest.) *)
Theorem execute_records_version_and_tag self w w' :
  execute self w = (w', Returned tt) ->
  exists v i r r',
    resolved self = inr v /\
    current_mz_version (executor w') = v /\
    resources w !! i = Some r /\
    is_stateful_set r = true /\
    (forall j r0, resources w !! j = Some r0 -> is_stateful_set r0 = true -> j = i) /\
    resources w' !! i = Some r' /\
    res_type r' = res_type r /\
    tag r' = new_tag self /\
    (truthy (new_tag self) = true -> tag_denotes (tag r') v).
Proof.
  intros H. runs H.
  destruct (select_singleton _ _ _ Hsel) as (Hi & Hr & Huniq).
  exists v, i, r, (mkResource (res_type r) (new_tag self) attrs').
  simpl. repeat split; auto.
  - apply list_lookup_insert_eq. by eapply lookup_lt_Some.
  - intros Ht. by apply resolved_truthy.
Qed.

(** *** The lookup *)

Lemma find_unique mz w :
  count_stateful_sets (resources w) = 1 ->
  exists i r,
    find_stateful_set mz w = (extend w [EvGetResources], Returned (i, r)) /\
    resources w !! i = Some r /\
    is_stateful_set r = true /\
    forall j r', resources w !! j = Some r' -> is_stateful_set r' = true -> j = i.
Proof.
  intros Hone. destruct (select_of_count_1 _ Hone) as (i & r & Hsel).
  exists i, r. rewrite find_stateful_set_run, Hsel.
  split; [reflexivity | by apply select_singleton].
Qed.

Lemma find_miscounted mz w :
  count_stateful_sets (resources w) <> 1 ->
  find_stateful_set mz w = (extend w [EvGetResources], Raised AssertionError).
Proof.
  intros Hcount. rewrite find_stateful_set_run.
  rewrite <- (select_length (resources w) 0) in Hcount.
  destruct (select_stateful_sets (enumerate_from 0 (resources w))) as [|p [|q l]];
    simpl in Hcount; try reflexivity; lia.
Qed.

(** C2 (as amended).  When the set holds exactly one resource of the target
    kind, the lookup returns it.  When it holds none, or two or more, the
    lookup raises [AssertionError], and [execute] raises, having changed
    neither the executor (so not its [current_mz_version]), nor a resource,
    nor the cluster; what it raises is the [AssertionError] whenever the
    version resolved, and the error of the resolution otherwise, which comes
    first. *)
Theorem lookup_cardinality self w :
  (count_stateful_sets (resources w) = 1 ->
   forall mz, exists i r,
     find_stateful_set mz w = (extend w [EvGetResources], Returned (i, r)) /\
     resources w !! i = Some r /\
     is_stateful_set r = true /\
     forall j r', resources w !! j = Some r' -> is_stateful_set r' = true -> j = i) /\
  (count_stateful_sets (resources w) <> 1 ->
   (forall mz,
      find_stateful_set mz w = (extend w [EvGetResources], Raised AssertionError)) /\
   exists w' x,
     execute self w = (w', Raised x) /\
     unchanged w w' /\
     current_mz_version (executor w') = current_mz_version (executor w) /\
     (forall v, resolved self = inr v -> x = AssertionError) /\
     (forall y, resolved self = inl y -> x = External y)).
Proof.
  split.
  - intros Hone mz. by apply find_unique.
  - intros Hcount. split; [intros mz; by apply find_miscounted |].
    destruct (resolved self) as [y|v] eqn:Hres.
    + exists (extend w [parse_event self]), (External y).
      split; [by apply execute_unresolved |].
      repeat split; try reflexivity; congruence.
    + exists (extend w (prelude self w v)), AssertionError.
      split; [by apply execute_miscounted |].
      repeat split; try reflexivity; congruence.
Qed.

(** *** Order of the effects *)

(** C3.  A run in which [replace()] raises ends with that call: the
    exception reaches the caller as it was raised, the call was made once,
    and the executor, so its [current_mz_version], is as before.  More
    generally no run that raises changes the executor, and a run that
    records the version does so as its last step, right after the one call
    of [replace()], which returned. *)
Theorem version_recorded_after_replace self w :
  (forall i x, replace_raises self w i x ->
     exists w' evs,
       execute self w = (w', Raised (External x)) /\
       executor w' = executor w /\
       happened w w' (evs ++ [EvReplace i]) /\
       existsb calls_replace evs = false /\
       existsb records_version evs = false) /\
  (forall w' x, execute self w = (w', Raised x) ->
     executor w' = executor w /\
     exists evs, happened w w' evs /\ existsb records_version evs = false) /\
  (forall w', execute self w = (w', Returned tt) ->
     exists v i r evs,
       select_stateful_sets (enumerate_from 0 (resources w)) = [(i, r)] /\
       snd (EnvironmentdStatefulSet_replace (new_tag self) (res_attrs r) (cluster w))
         = None /\
       happened w w' (evs ++ [EvReplace i; EvSetVersion v]) /\
       existsb calls_replace evs = false /\
       existsb records_version evs = false /\
       current_mz_version (executor w') = v).
Proof.
  split; [| split].
  - intros i x (v & r & Hres & Hsel & Hrep).
    destruct (EnvironmentdStatefulSet_replace (new_tag self) (res_attrs r) (cluster w))
      as [[attrs' cluster'] raised] eqn:Hcall. simpl in Hrep. subst raised.
    eexists _, (prelude self w v ++ [EvSetTag i (new_tag self)]).
    split; [apply run_execute; eapply run_rejected; eauto |].
    split; [reflexivity |]. split; [| quiet self w v].
    unfold happened; simpl. by rewrite <- ?app_assoc.
  - intros w' exc H. runs H; (split; [reflexivity |]); eexists; (split; [reflexivity |]).
    + simpl. by destruct (parse_event_quiet self) as (-> & _).
    + quiet self w v.
    + quiet self w v.
  - intros w' H. runs H.
    exists v, i, r, (prelude self w v ++ [EvSetTag i (new_tag self)]).
    rewrite Hrep. split; [exact Hsel |]. split; [reflexivity |].
    split; [| split; [| split; [| reflexivity]]]; [| quiet self w v ..].
    unfold happened; simpl. by rewrite <- ?app_assoc.
Qed.

(** *** Errors of the resolution *)

(** C4 (as amended).  A tag that is a non-empty string and that the parser
    rejects makes [execute] raise what the parser raised, with the call of
    the parser as the only event of the run: the executor and the resources
    were neither read nor written.  (The empty string never reaches the
    parser.) *)
Theorem malformed_tag_raises_first s x w :
  s <> "" ->
  MzVersion_parse_mz s = inl x ->
  execute (mkAction (Some s)) w = (extend w [EvParseMz s], Raised (External x)) /\
  unchanged w (extend w [EvParseMz s]) /\
  existsb touches_state [EvParseMz s] = false.
Proof.
  intros Hs Hparse. split; [| by repeat split].
  rewrite <- (parse_event_explicit s Hs). apply execute_unresolved.
  by rewrite resolved_explicit.
Qed.

(** C5.  A valid explicit tag, that is a non-empty string the parser
    accepts, resolves to what the parser returns for it; the build manifest
    is not consulted, whatever it holds, and a run that returns has recorded
    that version. *)
Theorem explicit_tag_round_trip s v w :
  s <> "" ->
  MzVersion_parse_mz s = inr v ->
  resolved (mkAction (Some s)) = MzVersion_parse_mz s /\
  resolve_version (mkAction (Some s)) w = (extend w [EvParseMz s], Returned v) /\
  forall w', execute (mkAction (Some s)) w = (w', Returned tt) ->
             current_mz_version (executor w') = v.
Proof.
  intros Hs Hparse. pose proof (resolved_explicit s Hs) as Hres.
  split; [exact Hres |]. split.
  - rewrite resolve_version_run, Hres, Hparse, parse_event_explicit by exact Hs.
    reflexivity.
  - intros w' H. apply execute_inv in H.
    inversion H as [| | | v' i r attrs' cluster' Hres' Hsel Hrep]; subst. simpl.
    congruence.
Qed.

(** C6.  With no tag, and likewise with the empty string for tag, the
    version is the one of the build manifest: the resolution calls
    [parse_cargo] and returns, or raises, what it does.  So when the manifest
    reports a version, that version is resolved and, if the run returns,
    recorded. *)
Theorem absent_tag_resolves_from_manifest self w :
  new_tag self = None \/ new_tag self = Some "" ->
  resolved self = MzVersion_parse_cargo /\
  resolve_version self w =
    (extend w [EvParseCargo],
     match MzVersion_parse_cargo with
     | inl x => Raised (External x)
     | inr v => Returned v
     end) /\
  forall v, MzVersion_parse_cargo = inr v ->
    resolve_version self w = (extend w [EvParseCargo], Returned v) /\
    forall w', execute self w = (w', Returned tt) ->
               current_mz_version (executor w') = v.
Proof.
  intros Htag.
  assert (Hfalsy : truthy (new_tag self) = false) by (destruct Htag as [-> | ->]; reflexivity).
  assert (Hev : parse_event self = EvParseCargo)
    by (unfold parse_event; destruct Htag as [-> | ->]; reflexivity).
  pose proof (resolved_falsy self Hfalsy) as Hres.
  split; [exact Hres |].
  split; [by rewrite resolve_version_run, Hres, Hev |].
  intros v Hcargo. split; [by rewrite resolve_version_run, Hres, Hev, Hcargo |].
  intros w' H. apply execute_inv in H.
  inversion H as [| | | v' i r attrs' cluster' Hres' Hsel Hrep]; subst. simpl.
  congruence.
Qed.

(** *** Exact match of the class *)

Lemma strict_subclass_not_exact c C : strict_subclass c C = true -> type_is c C = false.
Proof. unfold strict_subclass. destruct (type_is c C); [discriminate | reflexivity]. Qed.

Lemma count_none rs :
  (forall r, In r rs -> is_stateful_set r = false) -> count_stateful_sets rs = 0.
Proof.
  unfold count_stateful_sets. induction rs as [|r rs IH]; intros Hall; [reflexivity |].
  simpl. rewrite (Hall r) by (left; reflexivity).
  apply IH. intros r' Hr'. apply Hall. by right.
Qed.

(** C7.  The comprehension keeps a resource only when its class is the
    target class itself: a resource of a class derived from it is not kept.
    So in a set whose resources are of derived classes, or of other classes,
    and none of the target class, nothing is found and the assertion fails
    on a count of zero, in the lookup and in every run of [execute] that
    reaches it. *)
Theorem lookup_matches_exact_class_only w :
  (forall r, strict_subclass (res_type r) EnvironmentdStatefulSet = true ->
             is_stateful_set r = false) /\
  (forall i r, In (i, r) (select_stateful_sets (enumerate_from 0 (resources w))) ->
               type_is (res_type r) EnvironmentdStatefulSet = true /\
               strict_subclass (res_type r) EnvironmentdStatefulSet = false) /\
  ((forall r, In r (resources w) ->
              strict_subclass (res_type r) EnvironmentdStatefulSet = true \/
              issubclass (res_type r) EnvironmentdStatefulSet = false) ->
   count_stateful_sets (resources w) = 0 /\
   select_stateful_sets (enumerate_from 0 (resources w)) = [] /\
   (forall mz,
      find_stateful_set mz w = (extend w [EvGetResources], Raised AssertionError)) /\
   forall self v, resolved self = inr v ->
     execute self w = (extend w (prelude self w v), Raised AssertionError)).
Proof.
  split; [| split].
  - intros r. apply strict_subclass_not_exact.
  - intros i r Hin. apply select_In in Hin. destruct Hin as (_ & _ & Hr).
    unfold is_stateful_set in Hr. unfold strict_subclass. by rewrite Hr.
  - intros Hall.
    assert (Hnone : count_stateful_sets (resources w) = 0).
    { apply count_none. intros r Hr. destruct (Hall r Hr) as [H | H].
      - by apply strict_subclass_not_exact.
      - unfold issubclass in H. apply orb_false_iff in H. apply H. }
    split; [exact Hnone |]. split; [| split].
    + apply length_zero_iff_nil. by rewrite select_length.
    + intros mz. apply find_miscounted. lia.
    + intros self v Hres. apply execute_miscounted; [exact Hres | lia].
Qed.

(** *** join *)

(** C8.  [join] returns at once, in every world, with nothing raised and
    nothing changed, not even the trace; so [execute] followed by [join] is
    [execute]. *)
Theorem join_is_a_no_op self w :
  join self w = (w, Returned tt) /\
  (execute self ≫= fun _ => join self) w = execute self w.
Proof.
  split; [reflexivity |].
  cbv [mbind M_bind bind join ret].
  destruct (execute self w) as [w' [[]|x]]; reflexivity.
Qed.

(** *** The tag that is assigned *)

(** C9.  Let the action be constructed with [new_tag], or with no argument,
    which stands for [None].  In a run that returns, the one assignment of a
    tag gives the target resource that constructor argument as it is, and
    the resource holds it at the end.  When the argument is [None], or is
    left out, the tag of the resource is [None], while the executor records
    the version of the build manifest. *)
Theorem execute_assigns_raw_tag (arg : option (option string)) w w' :
  execute (init arg) w = (w', Returned tt) ->
  exists i r r' before after,
    resources w !! i = Some r /\
    is_stateful_set r = true /\
    happened w w' (before ++ [EvSetTag i (default None arg)] ++ after) /\
    existsb assigns_tag before = false /\
    existsb assigns_tag after = false /\
    resources w' !! i = Some r' /\
    tag r' = default None arg /\
    (default None arg = None ->
     tag r' = None /\
     MzVersion_parse_cargo = inr (current_mz_version (executor w'))).
Proof.
  assert (Harg : new_tag (init arg) = default None arg) by (by destruct arg).
  rewrite <- Harg. clear Harg. generalize (init arg). clear arg.
  intros self H. runs H.
  destruct (select_singleton _ _ _ Hsel) as (Hi & Hr & _).
  exists i, r, (mkResource (res_type r) (new_tag self) attrs'),
    (prelude self w v), [EvReplace i; EvSetVersion v].
  split; [exact Hi |]. split; [exact Hr |]. split; [reflexivity |].
  split; [quiet self w v |]. split; [reflexivity |].
  split; [apply list_lookup_insert_eq; by eapply lookup_lt_Some |].
  split; [reflexivity |].
  intros Hnone. simpl. split; [exact Hnone |].
  rewrite <- Hres. symmetry. apply resolved_falsy. by rewrite Hnone.
Qed.

(** *** The frame of the executor *)

Lemma within_bind {A B} (R : World -> World -> Prop) `{!Transitive R}
    (m : M A) (f : A -> M B) :
  within R m -> (forall a, within R (f a)) -> within R (m ≫= f).
Proof.
  intros Hm Hf w. cbv [mbind M_bind bind]. specialize (Hm w).
  destruct (m w) as [w1 [a|x]]; simpl in *; [| exact Hm].
  etransitivity; [exact Hm | apply Hf].
Qed.

#[local] Instance same_frame_refl : Reflexive same_frame.
Proof. by intros w. Qed.

#[local] Instance same_frame_trans : Transitive same_frame.
Proof. intros w1 w2 w3 [H1 H2] [H3 H4]. split; congruence. Qed.

Lemma within_pure {A} (m : M A) :
  (forall w, executor (fst (m w)) = executor w) -> within same_frame m.
Proof. intros H w. unfold same_frame. by rewrite H. Qed.

Lemma resolve_version_frame self : within same_frame (resolve_version self).
Proof. apply within_pure. intros w. by rewrite resolve_version_run. Qed.

Lemma find_stateful_set_frame mz : within same_frame (find_stateful_set mz).
Proof. apply within_pure. intros w. by rewrite find_stateful_set_run. Qed.

Lemma set_tag_frame p t : within same_frame (set_tag p t).
Proof.
  apply within_pure. intros w. unfold set_tag.
  by destruct (resources w !! p.1).
Qed.

Lemma replace_frame p : within same_frame (replace p).
Proof.
  apply within_pure. intros w. unfold replace.
  destruct (resources w !! p.1) as [r|]; [| reflexivity].
  by destruct (EnvironmentdStatefulSet_replace _ _ _) as [[? ?] ?].
Qed.

Lemma set_current_mz_version_frame v : within same_frame (set_current_mz_version v).
Proof. by intros w. Qed.

Lemma reads_frame :
  within same_frame get_current_mz_version /\
  within same_frame cloudtest_application /\
  forall line, within same_frame (print line).
Proof. by repeat split. Qed.

Create HintDb frame.
#[local] Hint Resolve resolve_version_frame find_stateful_set_frame set_tag_frame
  replace_frame set_current_mz_version_frame : frame.
#[local] Hint Extern 1 (within same_frame get_current_mz_version) =>
  apply reads_frame : frame.
#[local] Hint Extern 1 (within same_frame cloudtest_application) =>
  apply reads_frame : frame.
#[local] Hint Extern 1 (within same_frame (print _)) => apply reads_frame : frame.

(** C10.  Whatever a run of [execute] does, and however it ends, the
    executor keeps its application handle and its other attributes; a run
    that raises leaves the whole executor as it was, so the only attribute
    ever written is [current_mz_version]. *)
Theorem execute_frames_executor self w :
  application (executor (fst (execute self w))) = application (executor w) /\
  exec_attrs (executor (fst (execute self w))) = exec_attrs (executor w) /\
  forall x, snd (execute self w) = Raised x ->
            executor (fst (execute self w)) = executor w.
Proof.
  assert (Hframe : within same_frame (execute self)).
  { unfold execute.
    repeat (apply within_bind; [apply _ | solve [auto with frame] | intros ?]).
    auto with frame. }
  destruct (Hframe w) as [Happ Hattrs]. split; [exact Happ |]. split; [exact Hattrs |].
  intros x Hx. pose proof (execute_run self w) as Hrun. rewrite Hx in Hrun.
  inversion Hrun; reflexivity.
Qed.

(** ** Further properties of the action *)

(** *** When a run returns, and what it raises *)

Lemma count_1_select w :
  count_stateful_sets (resources w) = 1 ->
  exists i r,
    select_stateful_sets (enumerate_from 0 (resources w)) = [(i, r)] /\
    resources w !! i = Some r /\ is_stateful_set r = true.
Proof.
  intros Hone. destruct (select_of_count_1 _ Hone) as (i & r & Hsel).
  exists i, r. split; [exact Hsel |].
  destruct (select_singleton _ _ _ Hsel) as (Hi & Hr & _). auto.
Qed.

Lemma select_count_1 w i r :
  select_stateful_sets (enumerate_from 0 (resources w)) = [(i, r)] ->
  count_stateful_sets (resources w) = 1.
Proof. intros Hsel. by rewrite <- (select_length (resources w) 0), Hsel. Qed.

(** X1.  [execute] returns exactly when the version resolves, the set holds
    one resource of the target class, and [replace()], called on that
    resource with the new tag, does not raise. *)
Theorem execute_returns_iff self w :
  (exists w', execute self w = (w', Returned tt)) <->
  (exists v, resolved self = inr v) /\
  count_stateful_sets (resources w) = 1 /\
  (forall i r, resources w !! i = Some r -> is_stateful_set r = true ->
     snd (EnvironmentdStatefulSet_replace (new_tag self) (res_attrs r) (cluster w))
       = None).
Proof.
  split.
  - intros [w' H]. runs H.
    destruct (select_singleton _ _ _ Hsel) as (Hi & Hr & Huniq).
    split; [eauto |]. split; [by eapply select_count_1 |].
    intros j r0 Hj Hr0. pose proof (Huniq j r0 Hj Hr0) as ->.
    assert (r0 = r) as -> by congruence. by rewrite Hrep.
  - intros ([v Hres] & Hone & Hrep).
    destruct (count_1_select w Hone) as (i & r & Hsel & Hi & Hr).
    specialize (Hrep i r Hi Hr).
    destruct (EnvironmentdStatefulSet_replace (new_tag self) (res_attrs r) (cluster w))
      as [[attrs' cluster'] raised] eqn:Hcall. simpl in Hrep. subst raised.
    eexists. apply run_execute. eapply run_replaced; eauto.
Qed.

(** X2.  What [execute] raises is the [AssertionError], when the version
    resolved and the count of stateful sets is not one, or else the error of
    a collaborator as it was raised: the one of the version resolution, or
    the one of [replace()].  The subscript never raises [IndexError]. *)
Theorem execute_error_taxonomy self w exc :
  snd (execute self w) = Raised exc ->
  (exc = AssertionError /\
   count_stateful_sets (resources w) <> 1 /\
   exists v, resolved self = inr v) \/
  (exists y, exc = External y /\
     (resolved self = inl y \/ exists i, replace_raises self w i y)).
Proof.
  intros Hexc. pose proof (execute_run self w) as Hrun. rewrite Hexc in Hrun.
  inversion Hrun as [x Hres | v Hres Hcount
                    | v i r attrs' cluster' x Hres Hsel Hrep |]; subst.
  - right. eauto.
  - left. eauto.
  - right. exists x. split; [reflexivity |]. right. exists i, v, r.
    by rewrite Hrep.
Qed.

(** *** What a run leaves alone in the resource set *)

Lemma count_insert rs i r r' :
  rs !! i = Some r ->
  is_stateful_set r' = is_stateful_set r ->
  count_stateful_sets (<[i := r']> rs) = count_stateful_sets rs.
Proof.
  unfold count_stateful_sets.
  revert i; induction rs as [|r0 rs IH]; intros [|i] Hi Hsame; try discriminate.
  - simpl in *. injection Hi as ->. rewrite Hsame.
    by destruct (is_stateful_set r).
  - simpl in *. specialize (IH i Hi Hsame).
    destruct (is_stateful_set r0); simpl; by rewrite IH.
Qed.

(** X3.  Whatever a run does and however it ends, the resource set keeps
    its length, every resource keeps its class, so the count of stateful
    sets is the same, and every resource that is not of the target class is
    exactly as it was. *)
Theorem execute_frames_resources self w :
  length (resources (fst (execute self w))) = length (resources w) /\
  (forall j, res_type <$> resources (fst (execute self w)) !! j
             = res_type <$> resources w !! j) /\
  count_stateful_sets (resources (fst (execute self w)))
    = count_stateful_sets (resources w) /\
  (forall j r0, resources w !! j = Some r0 -> is_stateful_set r0 = false ->
     resources (fst (execute self w)) !! j = Some r0).
Proof.
  destruct (execute self w) as [w' out] eqn:H. simpl. runs H; simpl; auto.
  all: destruct (select_singleton _ _ _ Hsel) as (Hi & Hr & _).
  all: split; [apply length_insert |].
  all: split; [intros j; destruct (decide (i = j)) as [<- | Hne];
               [rewrite list_lookup_insert_eq by (by eapply lookup_lt_Some);
                by rewrite Hi
               |by rewrite list_lookup_insert_ne] |].
  all: split; [by eapply count_insert |].
  all: intros j r0 Hj Hr0; rewrite list_lookup_insert_ne; [exact Hj |];
       intros <-; congruence.
Qed.

(** *** The tag is assigned before [replace()] is called *)

(** X4.  When [replace()] raises, the assignment of the tag is not undone:
    the resource holds the new tag, its other attributes and the cluster are
    as the failed call left them, and the executor still has the old
    version. *)
Theorem rejected_replace_keeps_new_tag self w i x :
  replace_raises self w i x ->
  exists r r',
    resources w !! i = Some r /\
    resources (fst (execute self w)) !! i = Some r' /\
    tag r' = new_tag self /\
    EnvironmentdStatefulSet_replace (new_tag self) (res_attrs r) (cluster w)
      = (res_attrs r', cluster (fst (execute self w)), Some x) /\
    current_mz_version (executor (fst (execute self w)))
      = current_mz_version (executor w).
Proof.
  intros (v & r & Hres & Hsel & Hrep).
  destruct (select_singleton _ _ _ Hsel) as (Hi & _ & _).
  destruct (EnvironmentdStatefulSet_replace (new_tag self) (res_attrs r) (cluster w))
    as [[attrs' cluster'] raised] eqn:Hcall. simpl in Hrep. subst raised.
  rewrite (run_execute _ _ _ _ (run_rejected self w v i r attrs' cluster' x Hres Hsel Hcall)).
  exists r, (mkResource (res_type r) (new_tag self) attrs'). simpl.
  split; [exact Hi |].
  split; [apply list_lookup_insert_eq; by eapply lookup_lt_Some |].
  auto.
Qed.

(** X5.  In a run that returns, [replace()] was called on the target
    resource with the new tag in place, not the old one, and the run leaves
    the other attributes of the resource and the cluster as that call
    returned them. *)
Theorem replace_sees_new_tag self w w' :
  execute self w = (w', Returned tt) ->
  exists i r r',
    resources w !! i = Some r /\
    is_stateful_set r = true /\
    resources w' !! i = Some r' /\
    EnvironmentdStatefulSet_replace (new_tag self) (res_attrs r) (cluster w)
      = (res_attrs r', cluster w', None).
Proof.
  intros H. runs H.
  destruct (select_singleton _ _ _ Hsel) as (Hi & Hr & _).
  exists i, r, (mkResource (res_type r) (new_tag self) attrs'). simpl.
  split; [exact Hi |]. split; [exact Hr |].
  split; [apply list_lookup_insert_eq; by eapply lookup_lt_Some | exact Hrep].
Qed.

(** *** The source of the version *)

(** X6.  With no tag, or the empty string for tag, and a build manifest
    that cannot be read as a version, [execute] raises the error of
    [parse_cargo] as its first and only step: nothing is read, printed or
    changed. *)
Theorem unreadable_manifest_raises_first self w x :
  truthy (new_tag self) = false ->
  MzVersion_parse_cargo = inl x ->
  execute self w = (extend w [EvParseCargo], Raised (External x)).
Proof.
  intros Hfalsy Hcargo.
  assert (Hev : parse_event self = EvParseCargo).
  { unfold parse_event. destruct (new_tag self) as [s|]; [| reflexivity].
    by rewrite Hfalsy. }
  rewrite <- Hev. apply execute_unresolved.
  by rewrite resolved_falsy.
Qed.

Lemma added_events self w :
  exists evs,
    happened w (fst (execute self w)) (parse_event self :: evs) /\
    existsb is_parse evs = false /\
    (forall v, resolved self = inr v ->
       exists after,
         evs = EvGetVersion
               :: EvPrint (progress_line (current_mz_version (executor w)) v)
               :: after /\
         existsb is_print after = false) /\
    (forall y, resolved self = inl y -> evs = []).
Proof.
  destruct (execute self w) as [w' out] eqn:H. simpl. runs H; simpl.
  - exists []. split; [reflexivity |]. split; [reflexivity |].
    split; [intros v0 Hv; congruence | reflexivity].
  - eexists. split; [reflexivity |]. split; [reflexivity |]. split.
    + intros v0 Hv. assert (v0 = v) as -> by congruence.
      eexists. split; reflexivity.
    + intros y Hy. congruence.
  - eexists. split; [reflexivity |]. split; [reflexivity |]. split.
    + intros v0 Hv. assert (v0 = v) as -> by congruence.
      eexists. split; reflexivity.
    + intros y Hy. congruence.
  - eexists. split; [reflexivity |]. split; [reflexivity |]. split.
    + intros v0 Hv. assert (v0 = v) as -> by congruence.
      eexists. split; reflexivity.
    + intros y Hy. congruence.
Qed.

(** X7.  Every run asks exactly one source for the version, as its first
    step, and never the other: [parse_mz] on the tag when the tag is a
    non-empty string, [parse_cargo] otherwise. *)
Theorem one_version_source self w :
  exists first rest,
    happened w (fst (execute self w)) (first :: rest) /\
    existsb is_parse rest = false /\
    (forall s, new_tag self = Some s -> s <> "" -> first = EvParseMz s) /\
    (new_tag self = None \/ new_tag self = Some "" -> first = EvParseCargo).
Proof.
  destruct (added_events self w) as (evs & Hhap & Hparse & _).
  exists (parse_event self), evs. split; [exact Hhap |]. split; [exact Hparse |].
  unfold parse_event. split.
  - intros s -> Hs. simpl. by destruct (String.eqb_spec s "").
  - intros [-> | ->]; reflexivity.
Qed.


(** *** Where the stateful set is found *)

Lemma select_none {A} (f : A -> bool) (l : list A) :
  (forall x, In x l -> f x = false) -> List.filter f l = [].
Proof.
  induction l as [|a l IH]; intros Hall; [reflexivity |]. simpl.
  rewrite (Hall a) by (left; reflexivity). apply IH. intros x Hx. apply Hall. by right.
Qed.

Lemma enumerate_from_app {A} (l1 l2 : list A) k :
  enumerate_from k (l1 ++ l2)
  = enumerate_from k l1 ++ enumerate_from (k + length l1) l2.
Proof.
  revert k; induction l1 as [|a l1 IH]; intros k; simpl.
  - by rewrite Nat.add_0_r.
  - rewrite IH. by replace (S k + length l1) with (k + S (length l1)) by lia.
Qed.

Lemma enumerate_from_snd {A} (l : list A) k p :
  In p (enumerate_from k l) -> In (snd p) l.
Proof.
  revert k; induction l as [|a l IH]; intros k; simpl; [tauto |].
  intros [<- | H]; [by left | right; eauto].
Qed.

(** X9.  The lookup finds the stateful set wherever it sits among the
    resources: when the set is some resources of other classes, then a
    resource of the target class, then resources of other classes, the
    lookup returns the reference to that position and that resource. *)
Theorem find_stateful_set_position mz w before r after :
  resources w = before ++ r :: after ->
  is_stateful_set r = true ->
  (forall r', In r' before -> is_stateful_set r' = false) ->
  (forall r', In r' after -> is_stateful_set r' = false) ->
  find_stateful_set mz w = (extend w [EvGetResources], Returned (length before, r)).
Proof.
  intros Hrs Hr Hbefore Hafter. rewrite find_stateful_set_run, Hrs.
  rewrite enumerate_from_app. unfold select_stateful_sets.
  rewrite List.filter_app. simpl. rewrite Hr.
  rewrite !select_none; [reflexivity | |].
  - intros p Hp. apply Hafter. by eapply enumerate_from_snd.
  - intros p Hp. apply Hbefore. by eapply enumerate_from_snd.
Qed.

(** *** One action after another *)


End Properties.

(** ** The scenarios, run *)

Import Scenario.

Example scenario_upgrade :
  exists w',
    execute (mkAction (Some "0.10.0")) healthy = (w', Returned tt) /\
    current_mz_version (executor healthy) = v0_9_0 /\
    current_mz_version (executor w') = v0_10_0 /\
    tag <$> resources w' !! 1 = Some (Some "0.10.0") /\
    deployed (cluster w') = Some "0.10.0".
Proof. eexists. split; [reflexivity |]. repeat split. Qed.

Example scenario_two_stateful_sets :
  execute (mkAction (Some "0.10.0")) two_sets
  = (extend two_sets (prelude (mkAction (Some "0.10.0")) two_sets v0_10_0),
     Raised AssertionError).
Proof. reflexivity. Qed.

Example scenario_derived_class_only :
  strict_subclass derived_class EnvironmentdStatefulSet = true /\
  issubclass derived_class EnvironmentdStatefulSet = true /\
  snd (execute (mkAction None) derived_only) = Raised AssertionError.
Proof. repeat split. Qed.

Example parse_release_samples :
  parse_release "0.11.0-dev" = inr v0_11_0_dev /\
  parse_release "12.3.45" = inr (mkSemVer 12 3 45 None) /\
  parse_release "not-a-version" = inl (MalformedVersion "not-a-version") /\
  parse_release "1.2" = inl (MalformedVersion "1.2") /\
  parse_release "1.2.3.4" = inl (MalformedVersion "1.2.3.4") /\
  parse_release "1.2.3-" = inl (MalformedVersion "1.2.3-") /\
  parse_release "" = inl (MalformedVersion "").
Proof. repeat split. Qed.

(** The executor is at [0.9.0] and the tag [0.10.0] is given: the tag of the
    stateful set becomes [0.10.0] and so does the recorded version. *)
Lemma execute_records_version_and_tag_witness :
  exists v i r r',
    resolved (mkAction (Some "0.10.0")) = inr v /\
    current_mz_version
      (executor (fst (execute (mkAction (Some "0.10.0")) healthy))) = v /\
    resources healthy !! i = Some r /\
    is_stateful_set r = true /\
    (forall j r0, resources healthy !! j = Some r0 -> is_stateful_set r0 = true -> j = i) /\
    resources (fst (execute (mkAction (Some "0.10.0")) healthy)) !! i = Some r' /\
    res_type r' = res_type r /\
    tag r' = Some "0.10.0" /\
    (truthy (Some "0.10.0") = true -> tag_denotes (tag r') v).
Proof.
  apply (execute_records_version_and_tag (mkAction (Some "0.10.0")) healthy).
  reflexivity.
Defined.

(** C1, as stated, fails when no tag is given: the run returns, the executor
    holds the version of the build manifest, [0.11.0-dev], and the tag of the
    stateful set is [None], which is no version at all. *)
Lemma absent_tag_is_not_the_build_version :
  exists w' r',
    execute (mkAction None) healthy = (w', Returned tt) /\
    resolved (mkAction None) = inr v0_11_0_dev /\
    current_mz_version (executor w') = v0_11_0_dev /\
    resources w' !! 1 = Some r' /\
    is_stateful_set r' = true /\
    tag r' = None /\
    ~ tag_denotes (tag r') (current_mz_version (executor w')) /\
    tag r' <> Some (MzVersion_str (current_mz_version (executor w'))).
Proof.
  eexists _, _. split; [reflexivity |].
  repeat split; try reflexivity; simpl; [tauto | discriminate].
Qed.

(** One stateful set: the lookup returns it.  Two: the run raises and
    changes nothing. *)
Lemma lookup_cardinality_witness :
  (exists i r,
     find_stateful_set "cloudtest" healthy
       = (extend healthy [EvGetResources], Returned (i, r)) /\
     resources healthy !! i = Some r /\
     is_stateful_set r = true /\
     forall j r', resources healthy !! j = Some r' -> is_stateful_set r' = true -> j = i) /\
  (exists w' x,
     execute (mkAction (Some "0.10.0")) two_sets = (w', Raised x) /\
     unchanged two_sets w' /\
     current_mz_version (executor w') = v0_9_0 /\
     (forall v, resolved (mkAction (Some "0.10.0")) = inr v -> x = AssertionError) /\
     (forall y, resolved (mkAction (Some "0.10.0")) = inl y -> x = External y)).
Proof.
  split.
  - apply (proj1 (lookup_cardinality (mkAction None) healthy)). reflexivity.
  - apply (proj2 (lookup_cardinality (mkAction (Some "0.10.0")) two_sets)).
    vm_compute. discriminate.
Defined.

(** C2, as stated, fails when the tag is malformed: with two stateful sets in
    the set, what [execute] raises is the error of the parser and not the
    [AssertionError] of the lookup, which the run never reaches. *)
Lemma malformed_tag_hides_cardinality :
  count_stateful_sets (resources two_sets) = 2 /\
  snd (execute (mkAction (Some "not-a-version")) two_sets)
    = Raised (External (MalformedVersion "not-a-version")) /\
  snd (execute (mkAction (Some "not-a-version")) two_sets) <> Raised AssertionError /\
  trace (fst (execute (mkAction (Some "not-a-version")) two_sets))
    = [EvParseMz "not-a-version"].
Proof.
  split; [reflexivity |].
  assert (Hraised : snd (execute (mkAction (Some "not-a-version")) two_sets)
                    = Raised (External (MalformedVersion "not-a-version")))
    by reflexivity.
  split; [exact Hraised |]. split; [| reflexivity].
  rewrite Hraised. discriminate.
Qed.

(** The cluster rejects the replacement: the rejection reaches the caller
    and the executor is still at [0.9.0]. *)
Lemma version_recorded_after_replace_witness :
  replace_raises (mkAction (Some "0.10.0")) rejecting 1 ReplaceRejected /\
  exists w' evs,
    execute (mkAction (Some "0.10.0")) rejecting = (w', Raised (External ReplaceRejected)) /\
    executor w' = runner /\
    happened rejecting w' (evs ++ [EvReplace 1]) /\
    existsb calls_replace evs = false /\
    existsb records_version evs = false.
Proof.
  assert (H : replace_raises (mkAction (Some "0.10.0")) rejecting 1 ReplaceRejected).
  { exists v0_10_0, environmentd. repeat split. }
  split; [exact H |].
  exact (proj1 (version_recorded_after_replace (mkAction (Some "0.10.0")) rejecting)
           1 ReplaceRejected H).
Defined.

(** The tag [not-a-version] is rejected before anything is touched. *)
Lemma malformed_tag_raises_first_witness :
  execute (mkAction (Some "not-a-version")) healthy
    = (extend healthy [EvParseMz "not-a-version"],
       Raised (External (MalformedVersion "not-a-version"))) /\
  unchanged healthy (extend healthy [EvParseMz "not-a-version"]) /\
  existsb touches_state [EvParseMz "not-a-version"] = false.
Proof.
  apply (malformed_tag_raises_first (Env := harness) "not-a-version"
           (MalformedVersion "not-a-version") healthy).
  - discriminate.
  - reflexivity.
Defined.

(** C4, as stated, fails on the empty string: the parser would reject it, but
    it is never parsed; the version of the build manifest is taken, the
    resources are read, the stateful set is retagged and replaced, and the
    run returns. *)
Lemma empty_tag_is_not_parsed :
  MzVersion_parse_mz "" = inl (MalformedVersion "") /\
  snd (execute (mkAction (Some "")) healthy) = Returned tt /\
  trace (fst (execute (mkAction (Some "")) healthy))
    = [EvParseCargo; EvGetVersion;
       EvPrint "Replacing environmentd stateful set from version 0.9.0 to version 0.11.0-dev";
       EvGetApplication; EvGetResources; EvSetTag 1 (Some ""); EvReplace 1;
       EvSetVersion v0_11_0_dev] /\
  tag <$> resources (fst (execute (mkAction (Some "")) healthy)) !! 1 = Some (Some "") /\
  tag <$> resources healthy !! 1 = Some (Some "0.9.0").
Proof. repeat split. Qed.

(** The tag [0.10.0] resolves to the version [0.10.0]. *)
Lemma explicit_tag_round_trip_witness :
  resolved (mkAction (Some "0.10.0")) = MzVersion_parse_mz "0.10.0" /\
  resolve_version (mkAction (Some "0.10.0")) healthy
    = (extend healthy [EvParseMz "0.10.0"], Returned v0_10_0) /\
  forall w', execute (mkAction (Some "0.10.0")) healthy = (w', Returned tt) ->
             current_mz_version (executor w') = v0_10_0.
Proof.
  apply (explicit_tag_round_trip (Env := harness) "0.10.0" v0_10_0 healthy).
  - discriminate.
  - reflexivity.
Defined.

(** No tag, and a build manifest that reports [0.11.0-dev]: the resolved
    version is [0.11.0-dev]. *)
Lemma absent_tag_resolves_from_manifest_witness :
  resolve_version (mkAction None) healthy
    = (extend healthy [EvParseCargo], Returned v0_11_0_dev) /\
  forall w', execute (mkAction None) healthy = (w', Returned tt) ->
             current_mz_version (executor w') = v0_11_0_dev.
Proof.
  apply (proj2 (proj2 (absent_tag_resolves_from_manifest (mkAction None) healthy
                         (or_introl eq_refl)))).
  reflexivity.
Defined.

(** A set with a service and a resource of a class derived from the target
    class: nothing matches. *)
Lemma lookup_matches_exact_class_only_witness :
  strict_subclass (res_type tuned) EnvironmentdStatefulSet = true /\
  count_stateful_sets (resources derived_only) = 0 /\
  select_stateful_sets (enumerate_from 0 (resources derived_only)) = [] /\
  (forall mz,
     find_stateful_set mz derived_only
       = (extend derived_only [EvGetResources], Raised AssertionError)) /\
  forall self v, resolved self = inr v ->
    execute self derived_only
      = (extend derived_only (prelude self derived_only v), Raised AssertionError).
Proof.
  split; [reflexivity |].
  apply (proj2 (proj2 (lookup_matches_exact_class_only derived_only))).
  intros r [<- | [<- | []]]; [right | left]; reflexivity.
Defined.

(** The action is constructed with no argument: the stateful set ends with
    the tag [None] and the executor with the version of the build
    manifest. *)
Lemma execute_assigns_raw_tag_witness :
  exists i r r' before after,
    resources healthy !! i = Some r /\
    is_stateful_set r = true /\
    happened healthy (fst (execute (init None) healthy))
      (before ++ [EvSetTag i None] ++ after) /\
    existsb assigns_tag before = false /\
    existsb assigns_tag after = false /\
    resources (fst (execute (init None) healthy)) !! i = Some r' /\
    tag r' = None /\
    (@None string = None ->
     tag r' = None /\
     MzVersion_parse_cargo
       = inr (current_mz_version (executor (fst (execute (init None) healthy))))).
Proof.
  apply (execute_assigns_raw_tag None healthy).
  reflexivity.
Defined.

(** ** The further properties, run *)

(** The healthy scenario meets the three conditions, so the run returns. *)
Lemma execute_returns_iff_witness :
  exists w', execute (mkAction (Some "0.10.0")) healthy = (w', Returned tt).
Proof.
  apply (proj2 (execute_returns_iff (mkAction (Some "0.10.0")) healthy)).
  split; [exists v0_10_0; reflexivity |]. split; [reflexivity |].
  intros [|[|[|i]]] r Hi Hr; simpl in Hi; try discriminate;
    injection Hi as <-; try discriminate Hr; reflexivity.
Defined.

(** Two stateful sets: the run raises the [AssertionError]. *)
Lemma execute_error_taxonomy_witness :
  (AssertionError = AssertionError /\
   count_stateful_sets (resources two_sets) <> 1 /\
   exists v, resolved (mkAction (Some "0.10.0")) = inr v) \/
  (exists y, AssertionError = External y /\
     (resolved (mkAction (Some "0.10.0")) = inl y \/
      exists i, replace_raises (mkAction (Some "0.10.0")) two_sets i y)).
Proof.
  apply (execute_error_taxonomy (mkAction (Some "0.10.0")) two_sets AssertionError).
  reflexivity.
Defined.

(** The cluster rejects the replacement: the stateful set is left with the
    tag [0.10.0] while the executor is still at [0.9.0]. *)
Lemma rejected_replace_keeps_new_tag_witness :
  exists r r',
    resources rejecting !! 1 = Some r /\
    resources (fst (execute (mkAction (Some "0.10.0")) rejecting)) !! 1 = Some r' /\
    tag r' = Some "0.10.0" /\
    EnvironmentdStatefulSet_replace (Some "0.10.0") (res_attrs r) (cluster rejecting)
      = (res_attrs r',
         cluster (fst (execute (mkAction (Some "0.10.0")) rejecting)),
         Some ReplaceRejected) /\
    current_mz_version (executor (fst (execute (mkAction (Some "0.10.0")) rejecting)))
      = v0_9_0.
Proof.
  apply (rejected_replace_keeps_new_tag (mkAction (Some "0.10.0")) rejecting 1
           ReplaceRejected).
  exists v0_10_0, environmentd. repeat split.
Defined.

(** The replacement is asked of the cluster with the tag [0.10.0]. *)
Lemma replace_sees_new_tag_witness :
  exists i r r',
    resources healthy !! i = Some r /\
    is_stateful_set r = true /\
    resources (fst (execute (mkAction (Some "0.10.0")) healthy)) !! i = Some r' /\
    EnvironmentdStatefulSet_replace (Some "0.10.0") (res_attrs r) (cluster healthy)
      = (res_attrs r',
         cluster (fst (execute (mkAction (Some "0.10.0")) healthy)),
         None).
Proof.
  apply (replace_sees_new_tag (mkAction (Some "0.10.0")) healthy).
  reflexivity.
Defined.

(** No tag and a manifest that is not a version: the run stops at once. *)
Lemma unreadable_manifest_raises_first_witness :
  @execute StaleBuild.collaborators (init None) StaleBuild.world
  = (@extend StaleBuild.collaborators StaleBuild.world
       [@EvParseCargo StaleBuild.collaborators],
     @Raised StaleBuild.collaborators unit
       (@External StaleBuild.collaborators (MalformedVersion "workspace"))).
Proof.
  apply (unreadable_manifest_raises_first (Env := StaleBuild.collaborators)
           (init None) StaleBuild.world (MalformedVersion "workspace"));
    reflexivity.
Defined.


(** The stateful set sits between two services: it is found at position 1. *)
Lemma find_stateful_set_position_witness :
  find_stateful_set "cloudtest" healthy
  = (extend healthy [EvGetResources], Returned (1, environmentd)).
Proof.
  apply (find_stateful_set_position (Env := harness) "cloudtest" healthy
           [service] environmentd [service]).
  - reflexivity.
  - reflexivity.
  - intros r' [<- | []]. reflexivity.
  - intros r' [<- | []]. reflexivity.
Defined.

